(** * A shallow embedding of src/bot.py (Mobile Leak Checker bot)

    Python strings are modelled as [String.string] over ASCII characters,
    so [len] is [String.length]; module [Unicode] restates the validator
    over Unicode code points, where [str.isdigit] accepts more than 0-9.
    JSON values returned by [r.json()] are the inductive [json] (numbers are integers).  Time stamps from [time()] are
    rationals. *)

From Stdlib Require Import ZArith QArith Lqa Bool List Lia.
From Stdlib Require Import Strings.String Strings.Ascii Numbers.DecimalString.
From stdpp Require Import base gmap.

Import ListNotations.
Set Warnings "-register-all".
Open Scope string_scope.

(** ** Python string helpers *)

Definition nl : string := String (ascii_of_nat 10) EmptyString.

(** [str.isdigit] on a 7-bit ASCII character (codes below 128); on other
    code points Python's [str.isdigit] accepts more, see module [Unicode]. *)
Definition isdigit (c : ascii) : bool :=
  let n := nat_of_ascii c in (48 <=? n)%nat && (n <=? 57)%nat.

(** [str.isspace] on an ASCII character (Python counts 9-13 and 28-32). *)
Definition isspace (c : ascii) : bool :=
  let n := nat_of_ascii c in
  ((9 <=? n)%nat && (n <=? 13)%nat) || ((28 <=? n)%nat && (n <=? 32)%nat).

(** [s[:k]] *)
Definition py_prefix (k : nat) (s : string) : string := substring 0 k s.

(** [s[-k:]] for [k > 0]: the whole string when it is shorter. *)
Definition py_suffix (k : nat) (s : string) : string :=
  let n := String.length s in
  if (k <=? n)%nat then substring (n - k) k s else s.

Fixpoint lstrip (s : string) : string :=
  match s with
  | EmptyString => EmptyString
  | String c r => if isspace c then lstrip r else s
  end.

Definition rev_string (s : string) : string :=
  string_of_list_ascii (List.rev (list_ascii_of_string s)).

(** [s.strip()] *)
Definition py_strip (s : string) : string :=
  rev_string (lstrip (rev_string (lstrip s))).

(** [s.replace(a, b)] for single characters [a] and [b]. *)
Fixpoint replace_char (a b : ascii) (s : string) : string :=
  match s with
  | EmptyString => EmptyString
  | String c r => String (if Ascii.eqb c a then b else c) (replace_char a b r)
  end.

(** [s.split(sep)] for a one-character separator; the current piece is
    accumulated in reverse. *)
Fixpoint split_go (sep : ascii) (s : string) (cur : list ascii) : list string :=
  match s with
  | EmptyString => [string_of_list_ascii (List.rev cur)]
  | String c r =>
      if Ascii.eqb c sep
      then string_of_list_ascii (List.rev cur) :: split_go sep r []
      else split_go sep r (c :: cur)
  end.

Definition py_split (sep : ascii) (s : string) : list string := split_go sep s [].

(** [s.split(sep, 1)[1]]: the text after the first separator
    ([None] when there is none, where Python raises [IndexError]). *)
Fixpoint split1_rest (sep : ascii) (s : string) : option string :=
  match s with
  | EmptyString => None
  | String c r => if Ascii.eqb c sep then Some r else split1_rest sep r
  end.

Definition Z_to_string (z : Z) : string := NilEmpty.string_of_int (Z.to_int z).

Fixpoint join (sep : string) (l : list string) : string :=
  match l with
  | [] => ""
  | [x] => x
  | x :: r => x ++ sep ++ join sep r
  end.

(** Substring test [needle in hay]. *)
Fixpoint contains (needle hay : string) : bool :=
  String.prefix needle hay ||
  match hay with
  | EmptyString => false
  | String _ r => contains needle r
  end.

(** ** JSON values as returned by [r.json()] *)

Inductive json : Type :=
| JNull
| JBool (b : bool)
| JInt (z : Z)
| JStr (s : string)
| JArr (l : list json)
| JObj (kvs : list (string * json)).

(** Python truthiness of a JSON value. *)
Definition truthy (v : json) : bool :=
  match v with
  | JNull => false
  | JBool b => b
  | JInt z => negb (z =? 0)%Z
  | JStr s => negb (String.eqb s "")
  | JArr l => match l with [] => false | _ => true end
  | JObj kvs => match kvs with [] => false | _ => true end
  end.

(** [d.get(k)] on a dict (keys of a parsed dict are distinct). *)
Fixpoint dget (k : string) (d : list (string * json)) : option json :=
  match d with
  | [] => None
  | (k', v) :: r => if String.eqb k k' then Some v else dget k r
  end.

(** [d.get(k, dflt)] *)
Definition dget_or (k : string) (dflt : json) (d : list (string * json)) : json :=
  match dget k d with Some v => v | None => dflt end.

(** [a or b] on optional values ([None] stands for Python's [None]). *)
Definition py_or (a : option json) (b : json) : json :=
  match a with
  | Some v => if truthy v then v else b
  | None => b
  end.

(** [repr] of a string (ASCII): single quotes unless the string contains a
    single quote and no double quote. *)
Definition hex_digit (n : nat) : ascii :=
  if (n <? 10)%nat then ascii_of_nat (48 + n) else ascii_of_nat (87 + n).

Definition hex2 (c : ascii) : string :=
  let n := nat_of_ascii c in
  String (hex_digit (n / 16)) (String (hex_digit (n mod 16)) EmptyString).

Fixpoint repr_body (q : ascii) (s : string) : string :=
  match s with
  | EmptyString => EmptyString
  | String c r =>
      let n := nat_of_ascii c in
      (if Ascii.eqb c "\" then "\\"
       else if Ascii.eqb c q then String "\" (String q EmptyString)
       else if (n =? 9)%nat then "\t"
       else if (n =? 10)%nat then "\n"
       else if (n =? 13)%nat then "\r"
       else if (n <? 32)%nat || (n =? 127)%nat then "\x" ++ hex2 c
       else String c EmptyString) ++ repr_body q r
  end.

Definition dquote : ascii := ascii_of_nat 34.

Definition repr_str (s : string) : string :=
  let q := if contains "'" s && negb (contains (String dquote EmptyString) s)
           then dquote else "'"%char in
  String q (repr_body q s ++ String q EmptyString).

(** [repr] of a JSON value once parsed into Python objects. *)
Fixpoint py_repr (v : json) : string :=
  match v with
  | JNull => "None"
  | JBool true => "True"
  | JBool false => "False"
  | JInt z => Z_to_string z
  | JStr s => repr_str s
  | JArr l =>
      "[" ++ (fix go (l : list json) : string :=
                match l with
                | [] => ""
                | [x] => py_repr x
                | x :: r => py_repr x ++ ", " ++ go r
                end) l ++ "]"
  | JObj kvs =>
      "{" ++ (fix go (kvs : list (string * json)) : string :=
                match kvs with
                | [] => ""
                | [(k, x)] => repr_str k ++ ": " ++ py_repr x
                | (k, x) :: r => repr_str k ++ ": " ++ py_repr x ++ ", " ++ go r
                end) kvs ++ "}"
  end.

(** [str(v)] *)
Definition py_str (v : json) : string :=
  match v with
  | JStr s => s
  | _ => py_repr v
  end.

(** ** [validate_indian_number] (bot.py lines 52-54) *)

(** ["".join(ch for ch in n if ch.isdigit())] *)
Fixpoint keep_digits (s : string) : string :=
  match s with
  | EmptyString => EmptyString
  | String c r => if isdigit c then String c (keep_digits r) else keep_digits r
  end.

(** [s[0] in "6789"] for a non-empty [s] *)
Definition first_in_6789 (s : string) : bool :=
  match s with
  | EmptyString => false
  | String c _ => contains (String c EmptyString) "6789"
  end.

(** [None] is the invalid sentinel. *)
Definition validate_indian_number (n : string) : option string :=
  let s := keep_digits n in
  if (String.length s =? 10)%nat && first_in_6789 s then Some s else None.

(** ** The validator on full Python strings

    A Python [str] is a sequence of Unicode code points, and [str.isdigit]
    holds not only for ASCII 0-9 but for every code point whose numeric type
    is Digit or Decimal: superscripts such as U+00B2, and the decimal digits
    of other scripts such as Devanagari U+0966-U+096F.  The module below
    states [validate_indian_number] over code points; [isdigit_ranges] is the
    exact set of code points for which [str.isdigit] is true in CPython 3.11
    (Unicode 14.0), 788 code points in 81 ranges. *)
Module Unicode.

Definition ustr := list Z.

Definition isdigit_ranges : list (Z * Z) := [
    (48, 57); (178, 179); (185, 185); (1632, 1641); (1776, 1785);
    (1984, 1993); (2406, 2415); (2534, 2543); (2662, 2671); (2790, 2799);
    (2918, 2927); (3046, 3055); (3174, 3183); (3302, 3311); (3430, 3439);
    (3558, 3567); (3664, 3673); (3792, 3801); (3872, 3881); (4160, 4169);
    (4240, 4249); (4969, 4977); (6112, 6121); (6160, 6169); (6470, 6479);
    (6608, 6618); (6784, 6793); (6800, 6809); (6992, 7001); (7088, 7097);
    (7232, 7241); (7248, 7257); (8304, 8304); (8308, 8313); (8320, 8329);
    (9312, 9320); (9332, 9340); (9352, 9360); (9450, 9450); (9461, 9469);
    (9471, 9471); (10102, 10110); (10112, 10120); (10122, 10130);
    (42528, 42537); (43216, 43225); (43264, 43273); (43472, 43481);
    (43504, 43513); (43600, 43609); (44016, 44025); (65296, 65305);
    (66720, 66729); (68160, 68163); (68912, 68921); (69216, 69224);
    (69714, 69722); (69734, 69743); (69872, 69881); (69942, 69951);
    (70096, 70105); (70384, 70393); (70736, 70745); (70864, 70873);
    (71248, 71257); (71360, 71369); (71472, 71481); (71904, 71913);
    (72016, 72025); (72784, 72793); (73040, 73049); (73120, 73129);
    (92768, 92777); (92864, 92873); (93008, 93017); (120782, 120831);
    (123200, 123209); (123632, 123641); (125264, 125273); (127232, 127242);
    (130032, 130041)
  ]%Z.

(** [ch.isdigit()] *)
Definition isdigit (c : Z) : bool :=
  existsb (fun '(lo, hi) => (lo <=? c)%Z && (c <=? hi)%Z) isdigit_ranges.

(** ["".join(ch for ch in n if ch.isdigit())] *)
Definition keep_digits (n : ustr) : ustr := List.filter isdigit n.

(** [s[0] in "6789"] for a non-empty [s] *)
Definition first_in_6789 (s : ustr) : bool :=
  match s with
  | [] => false
  | c :: _ => existsb (Z.eqb c) [54; 55; 56; 57]%Z
  end.

Definition validate_indian_number (n : ustr) : option ustr :=
  let s := keep_digits n in
  if (List.length s =? 10)%nat && first_in_6789 s then Some s else None.

(** An ASCII string as its code points. *)
Definition of_ascii (s : string) : ustr :=
  List.map (fun c => Z.of_nat (nat_of_ascii c)) (list_ascii_of_string s).

(** The digits the specification asks for: ASCII 0-9 only. *)
Definition spec_ascii_digit (c : Z) : bool := (48 <=? c)%Z && (c <=? 57)%Z.

End Unicode.

(** ** Redaction (bot.py lines 56-84) *)

Definition redact_mobile (m : json) : string :=
  if negb (truthy m) then ""
  else let m := py_str m in
       if (4 <=? String.length m)%nat then "***-***-" ++ py_suffix 4 m else "***".

Definition redact_id (idn : json) : string :=
  if negb (truthy idn) then ""
  else let s := py_str idn in
       if (4 <? String.length s)%nat
       then py_prefix 1 s ++ "***" ++ py_suffix 2 s
       else "***".

(** [[p.strip() for p in str(addr).replace(";", "!").split("!") if p.strip()]] *)
Definition address_parts (a : string) : list string :=
  List.map py_strip
    (List.filter (fun p => negb (String.eqb (py_strip p) ""))
       (py_split "!" (replace_char ";" "!" a))).

Definition redact_address (addr : json) : string :=
  if negb (truthy addr) then "REDACTED"
  else match address_parts (py_str addr) with
       | [] => "REDACTED"
       | [p] => py_prefix 30 p ++ (if (30 <? String.length p)%nat then "..." else "")
       | p :: rest => py_prefix 30 p ++ " ... " ++ List.last rest p
       end.

(** A record is a parsed JSON dict; the result is the dict literal of
    [redact_record], in its key order. *)
Definition redact_record (r : list (string * json)) : list (string * json) :=
  [("id", JStr (redact_id (py_or (dget "id" r) (dget_or "id_number" (JStr "") r))));
   ("mobile", JStr (redact_mobile (py_or (dget "mobile" r) (JStr ""))));
   ("alt_mobile", JStr (redact_mobile (py_or (dget "alt_mobile" r) (JStr ""))));
   ("name", dget_or "name" (JStr "") r);
   ("father_name", dget_or "father_name" (JStr "") r);
   ("address", JStr (redact_address (dget_or "address" (JStr "") r)));
   ("circle", dget_or "circle" (JStr "") r);
   ("id_number", JStr (redact_id (dget_or "id_number" (JStr "") r)))].


(** ** [json.dumps(v, indent=2, ensure_ascii=False)] *)

Definition spaces (n : nat) : string := string_of_list_ascii (List.repeat " "%char n).

Fixpoint json_escape (s : string) : string :=
  match s with
  | EmptyString => EmptyString
  | String c r =>
      let n := nat_of_ascii c in
      (if Ascii.eqb c dquote then String "\" (String dquote EmptyString)
       else if Ascii.eqb c "\" then "\\"
       else if (n =? 10)%nat then "\n"
       else if (n =? 13)%nat then "\r"
       else if (n =? 9)%nat then "\t"
       else if (n =? 8)%nat then "\b"
       else if (n =? 12)%nat then "\f"
       else if (n <? 32)%nat then "\u00" ++ hex2 c
       else String c EmptyString) ++ json_escape r
  end.

Definition json_string (s : string) : string :=
  String dquote (json_escape s ++ String dquote EmptyString).

(** [dumps_at lvl v]: [v] encoded at nesting level [lvl]; items of a
    container go on their own lines, indented by [2 * (lvl + 1)]. *)
Fixpoint dumps_at (lvl : nat) (v : json) : string :=
  let inner := nl ++ spaces (2 * S lvl) in
  let close := nl ++ spaces (2 * lvl) in
  match v with
  | JNull => "null"
  | JBool true => "true"
  | JBool false => "false"
  | JInt z => Z_to_string z
  | JStr s => json_string s
  | JArr [] => "[]"
  | JArr l =>
      "[" ++ inner ++
      (fix go (l : list json) : string :=
         match l with
         | [] => ""
         | [x] => dumps_at (S lvl) x
         | x :: r => dumps_at (S lvl) x ++ "," ++ inner ++ go r
         end) l ++ close ++ "]"
  | JObj [] => "{}"
  | JObj kvs =>
      "{" ++ inner ++
      (fix go (kvs : list (string * json)) : string :=
         match kvs with
         | [] => ""
         | [(k, x)] => json_string k ++ ": " ++ dumps_at (S lvl) x
         | (k, x) :: r => json_string k ++ ": " ++ dumps_at (S lvl) x ++ "," ++ inner ++ go r
         end) kvs ++ close ++ "}"
  end.

Definition json_dumps (v : json) : string := dumps_at 0 v.

(** ** Configuration (bot.py lines 32-36) *)

Record config := {
  REMOTE_API_KEY : string;
  REMOTE_API_BASE : string;
  ADMIN_TOKEN : string;
  (** [int(os.environ["ADMIN_ID"])] when the variable is set and non-empty,
      [None] otherwise. *)
  ADMIN_ID : option Z
}.

(** ** Rate limiter (bot.py lines 47-49 and 86-92) *)

Definition COOLDOWN : Q := 3.

(** [LAST_CALL]: chat id -> timestamp of the last accepted call. *)
Abbreviation last_call_map := (gmap Z Q).

Definition Qltb (x y : Q) : bool := negb (Qle_bool y x).

(** Returns [(limited, remaining)] and the updated [LAST_CALL]. *)
Definition rate_limited (st : last_call_map) (chat_id : Z) (now : Q)
  : (bool * Q) * last_call_map :=
  let last : Q := match st !! chat_id with Some t => t | None => 0%Q end in
  if Qltb (now - last)%Q COOLDOWN
  then ((true, (COOLDOWN - (now - last))%Q), st)
  else ((false, 0%Q), <[chat_id := now]> st).

(** [int(x)] on a float: truncation toward zero. *)
Definition py_int (x : Q) : Z := Z.quot (Qnum x) (Zpos (Qden x)).

(** ** Chat effects and the upstream stub *)

(** What [requests.get(url, timeout=10)] gives back: an exception, or a
    response with its status, its text and the result of [r.json()]
    ([None] when that raises). *)
Inductive response : Type :=
| RespExn (msg : string)
| Resp (status : Z) (text : string) (parsed : option json).

(** Chat actions performed by a handler; [html] is [parse_mode="HTML"].
    [Crash] is an exception escaping the handler. *)
Inductive action : Type :=
| Answer
| EditText (text : string) (html : bool)
| ReplyText (text : string) (html : bool)
| ReplyDocument (document : string) (filename : string)
| Crash (exn : string).

Record outcome := {
  acts : list action;        (* chat actions, in order *)
  requests : list string;    (* URLs passed to requests.get *)
  last_call : last_call_map  (* LAST_CALL afterwards *)
}.

(** ** [callback_query_handler] (bot.py lines 145-200) *)

Definition msg_no_records : string := "Good — no records found for this number.".

(** [payload if isinstance(payload, list) else ([payload] if payload else [])] *)
Definition payload_rows (payload : json) : list json :=
  match payload with
  | JArr l => l
  | v => if truthy v then [v] else []
  end.

(** [[redact_record(rec) for rec in rows]]; [rec.get] raises
    [AttributeError] on anything but a dict. *)
Fixpoint redact_rows (rows : list json) : option (list json) :=
  match rows with
  | [] => Some []
  | JObj r :: rest =>
      match redact_rows rest with
      | Some out => Some (JObj (redact_record r) :: out)
      | None => None
      end
  | _ :: _ => None
  end.

Definition nat_to_string (n : nat) : string := Z_to_string (Z.of_nat n).

(** Lines 194-200. *)
Definition render_confirm (num : string) (nrows : nat) (pretty : string) : list action :=
  if (4000 <? String.length pretty)%nat
  then [ReplyDocument pretty ("result-" ++ num ++ ".json");
        EditText ("Found " ++ nat_to_string nrows ++ " record(s). Sent redacted JSON as file.") false]
  else [EditText ("Found " ++ nat_to_string nrows ++ " record(s). Redacted results:" ++ nl ++ nl
                  ++ "<pre>" ++ pretty ++ "</pre>") true].

(** Lines 167-200, after the upstream call. *)
Definition confirm_after_upstream (num : string) (r : response) : list action :=
  match r with
  | RespExn e => [EditText ("Upstream request failed: " ++ e) false]
  | Resp status text parsed =>
      if negb (status =? 200)%Z
      then [EditText ("Upstream error: " ++ Z_to_string status ++ " — " ++ py_prefix 500 text) false]
      else match parsed with
           | None => [EditText ("Upstream returned non-json:" ++ nl ++ nl ++ py_prefix 4000 text) false]
           | Some payload =>
               let rows := payload_rows payload in
               match rows with
               | [] => [EditText msg_no_records false]
               | _ =>
                   match redact_rows rows with
                   | None => [Crash "AttributeError"]
                   | Some redacted => render_confirm num (List.length rows) (json_dumps (JArr redacted))
                   end
               end
           end
  end.

Definition upstream_url (cfg : config) (num : string) : string :=
  REMOTE_API_BASE cfg ++ "?num=" ++ num ++ "&key=" ++ REMOTE_API_KEY cfg.

Definition callback_query_handler (cfg : config) (upstream : string -> response)
    (st : last_call_map) (chat_id : Z) (now : Q) (data : string) : outcome :=
  if String.eqb data "cancel" then
    {| acts := [Answer; EditText "Cancelled." false]; requests := []; last_call := st |}
  else if String.prefix "confirm|" data then
    match split1_rest "|" data with
    | None => {| acts := [Answer; Crash "IndexError"]; requests := []; last_call := st |}
    | Some num =>
        let '((limited, wait), st') := rate_limited st chat_id now in
        if limited then
          {| acts := [Answer; EditText ("Rate limit: try again in "
                                        ++ Z_to_string (py_int wait + 1) ++ "s.") false];
             requests := []; last_call := st' |}
        else
          let url := upstream_url cfg num in
          {| acts := [Answer; EditText "Checking... (server-side call)" false]
                     ++ confirm_after_upstream num (upstream url);
             requests := [url]; last_call := st' |}
    end
  else {| acts := [Answer]; requests := []; last_call := st |}.

(** ** [raw_cmd] and [require_admin] (bot.py lines 95-105 and 203-233) *)

(** Replies and upstream URLs of a handler without chat state. *)
Record reply := {
  r_acts : list action;
  r_requests : list string
}.

(** Lines 225-233: inside the [try]; a non-JSON body goes to [except]. *)
Definition render_raw (clean : string) (pretty : string) : list action :=
  if (4000 <? String.length pretty)%nat
  then [ReplyDocument pretty ("raw-" ++ clean ++ ".json")]
  else [ReplyText ("<pre>" ++ pretty ++ "</pre>") true].

Definition raw_after_upstream (clean : string) (r : response) : list action :=
  match r with
  | RespExn e => [ReplyText ("Upstream request failed: " ++ e) false]
  | Resp status text parsed =>
      if negb (status =? 200)%Z
      then [ReplyText ("Upstream error: " ++ Z_to_string status ++ " — " ++ py_prefix 500 text) false]
      else match parsed with
           | Some payload => render_raw clean (json_dumps payload)
           | None => [ReplyText (py_prefix 4000 text) false]
           end
  end.

Definition raw_cmd (cfg : config) (upstream : string -> response) (args : list string) : reply :=
  match args with
  | [] => {| r_acts := [ReplyText "Usage: /raw 7990127515" false]; r_requests := [] |}
  | num :: _ =>
      match validate_indian_number num with
      | None => {| r_acts := [ReplyText "Enter valid 10-digit Indian number." false];
                   r_requests := [] |}
      | Some clean =>
          let url := upstream_url cfg clean in
          {| r_acts := ReplyText "Fetching raw upstream (admin) ..." false
                       :: raw_after_upstream clean (upstream url);
             r_requests := [url] |}
      end
  end.

(** [not ADMIN_ID]: [None] and [0] are falsy. *)
Definition admin_id_falsy (a : option Z) : bool :=
  match a with None => true | Some z => (z =? 0)%Z end.

Definition msg_not_configured : string := "Admin functionality not configured on server.".
Definition msg_not_authorized : string := "You are not authorized to use this command.".

(** The decorator: [func] is only run on the authorised branch;
    [user] is [update.effective_user.id], [None] when there is no user. *)
Definition require_admin (cfg : config) (func : unit -> reply) (user : option Z) : reply :=
  if String.eqb (ADMIN_TOKEN cfg) "" || admin_id_falsy (ADMIN_ID cfg) then
    {| r_acts := [ReplyText msg_not_configured false]; r_requests := [] |}
  else
    match user with
    | Some uid =>
        if bool_decide (Some uid = ADMIN_ID cfg) then func tt
        else {| r_acts := [ReplyText msg_not_authorized false]; r_requests := [] |}
    | None => {| r_acts := [ReplyText msg_not_authorized false]; r_requests := [] |}
    end.

(** [raw_cmd] as registered: wrapped by [@require_admin]. *)
Definition raw_cmd_wrapped (cfg : config) (upstream : string -> response)
    (user : option Z) (args : list string) : reply :=
  require_admin cfg (fun _ => raw_cmd cfg upstream args) user.

(** ** [start_cmd], [check_cmd] and [message_handler] (bot.py lines 108-143
    and 236-243) *)

(** Chat actions of the command handlers: the chat actions above, plus the
    consent prompt of [check_cmd], a Markdown message with an inline
    keyboard given as (button label, callback data) pairs. *)
Inductive bot_action : Type :=
| Act (a : action)
| Prompt (text : string) (buttons : list (string * string)).

Record bot_outcome := {
  b_acts : list bot_action;
  b_requests : list string;
  b_last_call : last_call_map
}.

Definition start_text : string :=
  "Bot started — made by SK" ++ nl ++ nl ++
  "Usage:" ++ nl ++
  "/check <10-digit-number>  — run a safe check (asks consent)" ++ nl ++
  "/raw <number>             — (admin only) returns raw upstream JSON" ++ nl ++ nl ++
  "Only check numbers you own or have permission for.".

Definition start_cmd (st : last_call_map) : bot_outcome :=
  {| b_acts := [Act (ReplyText start_text false)]; b_requests := []; b_last_call := st |}.

Definition consent_prompt (clean : string) : bot_action :=
  Prompt ("You're about to check `" ++ clean
          ++ "`. Do you confirm this is your number or you have permission?")
         [("Confirm (this is mine / I have permission)", "confirm|" ++ clean);
          ("Cancel", "cancel")].

(** [args] is [context.args]; the rate limiter runs before anything else. *)
Definition check_cmd (st : last_call_map) (chat_id : Z) (now : Q) (args : list string)
  : bot_outcome :=
  let '((limited, _), st') := rate_limited st chat_id now in
  let out acts := {| b_acts := acts; b_requests := []; b_last_call := st' |} in
  if limited then out [Act (ReplyText "Slow down a bit. Try again in a moment." false)]
  else match args with
       | [] => out [Act (ReplyText "Usage: /check 7990127515" false)]
       | num :: _ =>
           match validate_indian_number num with
           | None => out [Act (ReplyText "Enter valid 10-digit Indian number (starts with 6-9)." false)]
           | Some clean => out [consent_prompt clean]
           end
       end.

Definition msg_text_help : string :=
  "Send /check <number> or just send a 10-digit Indian number.".

(** [text] is [update.message.text or ""]. *)
Definition message_handler (st : last_call_map) (chat_id : Z) (now : Q) (text : string)
  : bot_outcome :=
  let txt := py_strip text in
  match validate_indian_number txt with
  | Some _ => check_cmd st chat_id now [txt]
  | None => {| b_acts := [Act (ReplyText msg_text_help false)]; b_requests := [];
               b_last_call := st |}
  end.

(** ** Dispatch (bot.py lines 246-257) *)

(** An incoming update, as routed by the handlers registered in [main];
    command arguments are [context.args]. *)
Inductive update : Type :=
| UStart
| UCheck (args : list string)
| URaw (user : option Z) (args : list string)
| UCallback (data : string)
| UText (text : string)         (* a text message that is not a command *)
| UOther.                       (* anything no handler matches *)

Definition of_outcome (o : outcome) : bot_outcome :=
  {| b_acts := List.map Act (acts o); b_requests := requests o; b_last_call := last_call o |}.

Definition of_reply (r : reply) (st : last_call_map) : bot_outcome :=
  {| b_acts := List.map Act (r_acts r); b_requests := r_requests r; b_last_call := st |}.

Definition bot_step (cfg : config) (upstream : string -> response)
    (st : last_call_map) (chat_id : Z) (now : Q) (u : update) : bot_outcome :=
  match u with
  | UStart => start_cmd st
  | UCheck args => check_cmd st chat_id now args
  | URaw user args => of_reply (raw_cmd_wrapped cfg upstream user args) st
  | UCallback data => of_outcome (callback_query_handler cfg upstream st chat_id now data)
  | UText text => message_handler st chat_id now text
  | UOther => {| b_acts := []; b_requests := []; b_last_call := st |}
  end.

(** A parsed JSON value that is a dict (has [.get]). *)
Definition is_obj (v : json) : bool :=
  match v with JObj _ => true | _ => false end.

(** [b] is what slicing [text[:k]] leaves: a prefix of at most [k]
    characters, the whole text when it is short enough. *)
Definition cut_of (k : nat) (b text : string) : Prop :=
  String.prefix b text = true /\ (String.length b <= k)%nat /\
  ((String.length text <= k)%nat -> b = text).

(** ** Views stated in the words of the specification *)

(** Masked phone number: ["***-***-"] and the last four characters. *)
Definition mobile_view (s : string) : string :=
  if String.eqb s "" then ""
  else if (4 <=? String.length s)%nat
       then "***-***-" ++ substring (String.length s - 4) 4 s
       else "***".

(** Masked identifier: first character, ["***"], last two characters. *)
Definition id_view (s : string) : string :=
  if String.eqb s "" then ""
  else if (4 <? String.length s)%nat
       then substring 0 1 s ++ "***" ++ substring (String.length s - 2) 2 s
       else "***".

(** Split on either [';'] or ['!']. *)
Definition addr_sep (c : ascii) : bool := Ascii.eqb c ";" || Ascii.eqb c "!".

Fixpoint split_seps (s : string) (cur : list ascii) : list string :=
  match s with
  | EmptyString => [string_of_list_ascii (List.rev cur)]
  | String c r =>
      if addr_sep c
      then string_of_list_ascii (List.rev cur) :: split_seps r []
      else split_seps r (c :: cur)
  end.

(** The non-empty trimmed segments of an address. *)
Definition segments (a : string) : list string :=
  List.filter (fun p => negb (String.eqb p "")) (List.map py_strip (split_seps a [])).

Definition address_view (a : string) : string :=
  match segments a with
  | [] => "REDACTED"
  | [p] => substring 0 30 p ++ (if (30 <? String.length p)%nat then "..." else "")
  | p :: rest => substring 0 30 p ++ " ... " ++ List.last rest p
  end.

(** A record field that is absent or holds a string, and its string. *)
Definition str_or_absent (r : list (string * json)) (k : string) : Prop :=
  dget k r = None \/ exists s, dget k r = Some (JStr s).

Definition field_str (r : list (string * json)) (k : string) : string :=
  match dget k r with Some (JStr s) => s | _ => "" end.

(** A field that is absent or falsy. *)
Definition missing_or_falsy (o : option json) : Prop :=
  match o with None => True | Some v => truthy v = false end.

(** Text carried by a chat action. *)
Definition action_text (a : action) : string :=
  match a with
  | EditText t _ | ReplyText t _ => t
  | ReplyDocument d fn => d ++ fn
  | Answer | Crash _ => ""
  end.

Definition final_text (l : list action) : string := action_text (List.last l Answer).

Definition is_document (a : action) : bool :=
  match a with ReplyDocument _ _ => true | _ => false end.

(** An HTML message with [pretty] inside [<pre>] tags. *)
Definition inline_pre (pretty : string) (a : action) : bool :=
  match a with
  | EditText t true | ReplyText t true => contains ("<pre>" ++ pretty ++ "</pre>") t
  | _ => false
  end.

(** The stubbed upstream of the end-to-end scenario. *)
Definition scenario_payload : json :=
  JArr [JObj [("mobile", JStr "9876543210"); ("id_number", JStr "AB1234567")]].

Definition scenario_upstream (url : string) : response :=
  Resp 200 (json_dumps scenario_payload) (Some scenario_payload).

(** * Properties *)
Example redact_mobile_ex1 : redact_mobile (JStr "9876543210") = "***-***-3210".
Proof. reflexivity. Qed.
Example redact_id_ex1 : redact_id (JStr "AB1234567") = "A***67".
Proof. reflexivity. Qed.
Example redact_id_ex2 : redact_id (JStr "12") = "***".
Proof. reflexivity. Qed.
Example redact_address_ex1 :
  redact_address (JStr "123 Main St; Apt 4; Springfield") = "123 Main St ... Springfield".
Proof. reflexivity. Qed.
Example validate_ex1 : validate_indian_number "+91 79901-27515" = None.
Proof. reflexivity. Qed.
Example validate_ex2 : validate_indian_number "(799) 012-7515" = Some "7990127515".
Proof. reflexivity. Qed.
Example py_repr_ex : py_str (JArr [JStr "a"; JInt (-3); JNull; JObj [("a", JBool true)]])
  = "['a', -3, None, {'a': True}]".
Proof. reflexivity. Qed.

(** ** Validator *)

Lemma keep_digits_list (n : string) :
  list_ascii_of_string (keep_digits n) = List.filter isdigit (list_ascii_of_string n).
Proof.
  induction n as [|c r IH]; simpl; [reflexivity|].
  destruct (isdigit c); simpl; congruence.
Qed.

Lemma keep_digits_idem (n : string) : keep_digits (keep_digits n) = keep_digits n.
Proof.
  induction n as [|c r IH]; simpl; [reflexivity|].
  destruct (isdigit c) eqn:E; simpl; [rewrite E, IH|]; exact IH || reflexivity.
Qed.

Lemma first_in_6789_spec (s : string) :
  first_in_6789 s = true <->
  exists d r, s = String d r /\ In d ["6"; "7"; "8"; "9"]%char.
Proof.
  split.
  - destruct s as [|c r]; simpl; [discriminate|intros H].
    exists c, r; split; [reflexivity|].
    destruct (ascii_dec c "6"); [left; congruence|].
    destruct (ascii_dec c "7"); [right; left; congruence|].
    destruct (ascii_dec c "8"); [right; right; left; congruence|].
    destruct (ascii_dec c "9"); [right; right; right; left; congruence|].
    discriminate.
  - intros (d & r & -> & Hd); simpl.
    destruct Hd as [<-|[<-|[<-|[<-|[]]]]]; reflexivity.
Qed.

(** A 7-bit ASCII string: every character below 128. *)
Lemma unicode_isdigit_ascii (c : ascii) :
  (nat_of_ascii c <? 128)%nat = true ->
  Unicode.isdigit (Z.of_nat (nat_of_ascii c)) = isdigit c.
Proof. destruct c as [[] [] [] [] [] [] [] []]; intros H; try discriminate H; reflexivity. Qed.

Lemma unicode_first_ascii (c : ascii) :
  Unicode.first_in_6789 [Z.of_nat (nat_of_ascii c)] = first_in_6789 (String c EmptyString).
Proof. destruct c as [[] [] [] [] [] [] [] []]; reflexivity. Qed.

Lemma unicode_keep_digits_ascii (s : string) :
  forallb (fun c => nat_of_ascii c <? 128)%nat (list_ascii_of_string s) = true ->
  Unicode.keep_digits (Unicode.of_ascii s) = Unicode.of_ascii (keep_digits s).
Proof.
  induction s as [|c s IH]; intros H; [reflexivity|].
  simpl in H. apply andb_prop in H as [Hc H].
  unfold Unicode.keep_digits, Unicode.of_ascii in *. simpl.
  rewrite (unicode_isdigit_ascii c Hc).
  destruct (isdigit c); simpl; [f_equal|]; exact (IH H).
Qed.

Lemma unicode_of_ascii_length (s : string) :
  List.length (Unicode.of_ascii s) = String.length s.
Proof. unfold Unicode.of_ascii. rewrite List.length_map. induction s; simpl; auto. Qed.

(** On 7-bit ASCII input the validator over code points is the ASCII model,
    so the properties proved of [validate_indian_number] hold there. *)
Lemma unicode_validate_ascii (s : string) :
  forallb (fun c => nat_of_ascii c <? 128)%nat (list_ascii_of_string s) = true ->
  Unicode.validate_indian_number (Unicode.of_ascii s) =
  option_map Unicode.of_ascii (validate_indian_number s).
Proof.
  intros H7.
  unfold Unicode.validate_indian_number, validate_indian_number.
  rewrite (unicode_keep_digits_ascii s H7), unicode_of_ascii_length.
  destruct (keep_digits s) as [|c r]; [reflexivity|].
  assert (Hf : Unicode.first_in_6789 (Unicode.of_ascii (String c r)) = first_in_6789 (String c r))
    by exact (unicode_first_ascii c).
  rewrite Hf. destruct (_ && _); reflexivity.
Qed.

Lemma unicode_first_in_6789_spec (s : Unicode.ustr) :
  Unicode.first_in_6789 s = true <-> exists d r, s = d :: r /\ In d [54; 55; 56; 57]%Z.
Proof.
  destruct s as [|z s]; cbn [Unicode.first_in_6789].
  - split; [discriminate|]. intros (d & r & H & _); discriminate.
  - split.
    + intros H. exists z, s. split; [reflexivity|].
      apply List.existsb_exists in H as (x & Hx & Hz). apply Z.eqb_eq in Hz. subst x. exact Hx.
    + intros (d & r & Hdr & Hd). injection Hdr as Hz _. subst z.
      apply List.existsb_exists. exists d. split; [exact Hd|apply Z.eqb_refl].
Qed.

(** C3 (what the code does): over Python strings the validator keeps
    exactly the characters for which [str.isdigit] holds, accepts iff they
    are ten and the first is 6, 7, 8 or 9, then returns them unchanged, and
    otherwise returns the [None] sentinel. *)
Theorem validator_contract_unicode (n : Unicode.ustr) :
  (forall c, Unicode.validate_indian_number n = Some c <->
     c = List.filter Unicode.isdigit n /\ List.length c = 10%nat /\
     exists d r, c = d :: r /\ In d [54; 55; 56; 57]%Z) /\
  (Unicode.validate_indian_number n = None <->
     ~ (List.length (List.filter Unicode.isdigit n) = 10%nat /\
        exists d r, List.filter Unicode.isdigit n = d :: r /\ In d [54; 55; 56; 57]%Z)).
Proof.
  unfold Unicode.validate_indian_number, Unicode.keep_digits.
  pose proof (unicode_first_in_6789_spec (List.filter Unicode.isdigit n)) as Hs.
  destruct (Nat.eqb_spec (List.length (List.filter Unicode.isdigit n)) 10) as [Hl|Hl];
  destruct (Unicode.first_in_6789 (List.filter Unicode.isdigit n)) eqn:Hf; simpl.
  - split.
    + intros c; split; [intros [= <-]; rewrite <- Hs; auto|].
      intros (-> & _); reflexivity.
    + split; [discriminate|]. intros Hn; exfalso; apply Hn; rewrite <- Hs; auto.
  - split.
    + intros c; split; [discriminate|]. intros (-> & _ & H); apply Hs in H; congruence.
    + split; [intros _ (_ & H); apply Hs in H; congruence|reflexivity].
  - split.
    + intros c; split; [discriminate|]. intros (-> & H & _); contradiction.
    + split; [intros _ (H & _); contradiction|reflexivity].
  - split.
    + intros c; split; [discriminate|]. intros (-> & H & _); contradiction.
    + split; [intros _ (H & _); contradiction|reflexivity].
Qed.

(** C3, against the specification's ten ASCII digits: ["799012751²"]
    (nine ASCII digits and a superscript two) and ["7९९०१२७५१५"] (one ASCII
    digit and nine Devanagari digits) are accepted and returned unchanged,
    although they hold 9 and 1 ASCII digits. *)
Lemma validator_non_ascii_accepted :
  Unicode.validate_indian_number (Unicode.of_ascii "799012751" ++ [178%Z])%list =
    Some (Unicode.of_ascii "799012751" ++ [178%Z])%list /\
  List.length (List.filter Unicode.spec_ascii_digit
    (Unicode.of_ascii "799012751" ++ [178%Z])%list) = 9%nat /\
  Unicode.validate_indian_number [55; 2415; 2415; 2406; 2407; 2408; 2413; 2411; 2407; 2411]%Z =
    Some [55; 2415; 2415; 2406; 2407; 2408; 2413; 2411; 2407; 2411]%Z /\
  List.length (List.filter Unicode.spec_ascii_digit
    [55; 2415; 2415; 2406; 2407; 2408; 2413; 2411; 2407; 2411]%Z) = 1%nat.
Proof. vm_compute. repeat split. Qed.

(** C8: the validator is idempotent on what it accepts. *)
Theorem validator_idempotent (n c : string) :
  validate_indian_number n = Some c -> validate_indian_number c = Some c.
Proof.
  unfold validate_indian_number.
  destruct (_ && _) eqn:E; [|discriminate].
  intros [= <-]. rewrite keep_digits_idem, E. reflexivity.
Qed.

Lemma validator_idempotent_witness :
  validate_indian_number "(799) 012-7515" = Some "7990127515" /\
  validate_indian_number "7990127515" = Some "7990127515".
Proof.
  split; [reflexivity|].
  apply (validator_idempotent "(799) 012-7515"). reflexivity.
Defined.

(** ** Rate limiter *)

Lemma Qltb_spec (x y : Q) : Qltb x y = true <-> (x < y)%Q.
Proof.
  unfold Qltb. rewrite negb_true_iff. split.
  - intros H. apply Qnot_le_lt. intros Hle. apply Qle_bool_iff in Hle. congruence.
  - intros H. destruct (Qle_bool y x) eqn:E; [|reflexivity].
    apply Qle_bool_iff in E. exfalso. apply (Qlt_not_le x y); assumption.
Qed.

(** C4 (claim as stated): a chat id with no recorded call is limited when
    [time()] is below the cooldown, since the missing entry counts as 0. *)
Lemma rate_limited_unrecorded_limited :
  (∅ : last_call_map) !! 42%Z = None /\
  fst (fst (rate_limited ∅ 42 1)) = true.
Proof. split; reflexivity. Qed.

(** C4 (amended): with [last] the recorded time stamp of the chat id, or 0
    when there is none, a check is limited iff [now - last < 3]; a limited
    check returns a positive remaining time and leaves the map unchanged;
    an accepted check stores [now] for the chat id. *)
Theorem rate_limited_spec (st : last_call_map) (chat_id : Z) (now : Q) :
  let last := match st !! chat_id with Some t => t | None => 0%Q end in
  let res := rate_limited st chat_id now in
  (fst (fst res) = true <-> (now - last < COOLDOWN)%Q) /\
  (fst (fst res) = true -> (0 < snd (fst res))%Q /\ snd res = st) /\
  (fst (fst res) = false -> snd (fst res) = 0%Q /\ snd res = <[chat_id := now]> st) /\
  (st !! chat_id = None -> (fst (fst res) = true <-> (now < COOLDOWN)%Q)).
Proof.
  intros last res. subst res. unfold rate_limited. fold last.
  destruct (Qltb (now - last) COOLDOWN) eqn:E; simpl;
  pose proof (Qltb_spec (now - last) COOLDOWN) as Hs.
  - apply Hs in E. split; [tauto|]. split; [intros _; split; [unfold COOLDOWN in *; lra|reflexivity]|].
    split; [discriminate|].
    intros Hn. unfold last in E. rewrite Hn in E. split; [intros _; lra|reflexivity].
  - split; [split; [discriminate|intros H; apply Hs in H; congruence]|].
    split; [discriminate|]. split; [split; reflexivity|].
    intros Hn. split; [discriminate|]. intros H. exfalso.
    assert (Ht : Qltb (now - last) COOLDOWN = true) by (apply Hs; unfold last; rewrite Hn; lra).
    congruence.
Qed.

(** ** Redactor *)

Lemma redact_mobile_str (s : string) : redact_mobile (JStr s) = mobile_view s.
Proof.
  unfold redact_mobile, mobile_view, py_suffix; cbn [truthy negb py_str].
  destruct (String.eqb s ""); cbn [negb]; [reflexivity|].
  destruct (4 <=? String.length s)%nat; reflexivity.
Qed.

Lemma redact_id_str (s : string) : redact_id (JStr s) = id_view s.
Proof.
  unfold redact_id, id_view, py_suffix, py_prefix; cbn [truthy negb py_str].
  destruct (String.eqb s ""); cbn [negb]; [reflexivity|].
  destruct (Nat.ltb_spec 4 (String.length s)); [|reflexivity].
  replace (2 <=? String.length s)%nat with true by (symmetry; apply Nat.leb_le; lia).
  reflexivity.
Qed.

Lemma map_filter_compose {A B} (f : A -> B) (p : B -> bool) (l : list A) :
  List.map f (List.filter (fun x => p (f x)) l) = List.filter p (List.map f l).
Proof.
  induction l as [|x l IH]; simpl; [reflexivity|].
  destruct (p (f x)); simpl; congruence.
Qed.

Lemma split_replace_seps (s : string) (cur : list ascii) :
  split_go "!" (replace_char ";" "!" s) cur = split_seps s cur.
Proof.
  revert cur. induction s as [|c r IH]; intros cur; simpl; [reflexivity|].
  unfold addr_sep.
  destruct (Ascii.eqb_spec c ";") as [->|Hsc]; simpl; [rewrite IH; reflexivity|].
  destruct (Ascii.eqb_spec c "!") as [->|Hbang]; simpl; rewrite IH; reflexivity.
Qed.

Lemma address_parts_segments (a : string) : address_parts a = segments a.
Proof.
  unfold address_parts, segments, py_split.
  rewrite split_replace_seps.
  apply (map_filter_compose py_strip (fun p => negb (String.eqb p ""))).
Qed.

Lemma redact_address_str (s : string) : redact_address (JStr s) = address_view s.
Proof.
  unfold redact_address, address_view; simpl.
  destruct (String.eqb_spec s "") as [->|Hne]; simpl; [reflexivity|].
  rewrite address_parts_segments. reflexivity.
Qed.

Lemma py_or_str (r : list (string * json)) (k : string) (d : json) :
  str_or_absent r k ->
  py_or (dget k r) d = if String.eqb (field_str r k) "" then d else JStr (field_str r k).
Proof.
  unfold field_str. intros [H|[s H]]; rewrite H; simpl; [reflexivity|].
  destruct (String.eqb s ""); reflexivity.
Qed.

Lemma dget_or_str (r : list (string * json)) (k : string) :
  str_or_absent r k -> dget_or k (JStr "") r = JStr (field_str r k).
Proof. unfold dget_or, field_str. intros [H|[s H]]; rewrite H; reflexivity. Qed.

Lemma if_empty_str (s : string) :
  (if String.eqb s "" then JStr "" else JStr s) = JStr s.
Proof. destruct (String.eqb_spec s ""); subst; reflexivity. Qed.

(** C1 (claim as stated): an empty [id] does not become the empty string
    when [id_number] is set; the output [id] falls back to [id_number]. *)
Lemma redact_record_empty_id_not_empty :
  dget "id" (redact_record [("id", JStr ""); ("id_number", JStr "AB1234567")])
  = Some (JStr "A***67") /\
  dget "id" (redact_record [("id", JStr ""); ("id_number", JStr "AB1234567")])
  <> Some (JStr "").
Proof. split; [reflexivity|discriminate]. Qed.

(** C1 (amended): on a record whose [mobile], [alt_mobile], [id],
    [id_number] and [address] are strings or absent (absent read as ""),
    the phone numbers are masked to ["***-***-"] plus their last four
    characters (["***"] when shorter, "" when empty), [id_number] and the
    output [id] (taken from [id] when non-empty, else from [id_number]) to
    first character, ["***"], last two characters (["***"] up to length 4,
    "" when empty), the address is reduced over its non-empty trimmed
    segments split at [';'] and ['!'], and [name], [father_name] and
    [circle] are passed through. *)
Theorem redact_record_fields (r : list (string * json))
    (Hm : str_or_absent r "mobile") (Ha : str_or_absent r "alt_mobile")
    (Hi : str_or_absent r "id") (Hn : str_or_absent r "id_number")
    (Had : str_or_absent r "address") :
  let out := redact_record r in
  dget "mobile" out = Some (JStr (mobile_view (field_str r "mobile"))) /\
  dget "alt_mobile" out = Some (JStr (mobile_view (field_str r "alt_mobile"))) /\
  dget "id" out =
    Some (JStr (id_view (if String.eqb (field_str r "id") ""
                         then field_str r "id_number" else field_str r "id"))) /\
  dget "id_number" out = Some (JStr (id_view (field_str r "id_number"))) /\
  dget "address" out = Some (JStr (address_view (field_str r "address"))) /\
  (forall k, In k ["name"; "father_name"; "circle"] ->
     forall v, dget k r = Some v -> dget k out = Some v).
Proof.
  intros out. subst out. unfold redact_record; simpl.
  rewrite (py_or_str r "mobile") by exact Hm.
  rewrite (py_or_str r "alt_mobile") by exact Ha.
  rewrite (py_or_str r "id") by exact Hi.
  rewrite !dget_or_str by assumption.
  rewrite !if_empty_str, !redact_mobile_str, !redact_id_str, redact_address_str.
  repeat split.
  - destruct (String.eqb (field_str r "id") ""); rewrite redact_id_str; reflexivity.
  - intros k Hk v Hv. unfold dget_or.
    destruct Hk as [<-|[<-|[<-|[]]]]; simpl; rewrite Hv; reflexivity.
Qed.

Lemma redact_record_fields_witness :
  let r := [("mobile", JStr "9876543210"); ("id_number", JStr "AB1234567");
            ("address", JStr "123 Main St; Apt 4; Springfield"); ("name", JStr "Ravi")] in
  str_or_absent r "mobile" /\
  dget "mobile" (redact_record r) = Some (JStr (mobile_view "9876543210")) /\
  mobile_view "9876543210" = "***-***-3210" /\
  id_view "AB1234567" = "A***67" /\ id_view "12" = "***" /\ mobile_view "" = "" /\
  address_view "123 Main St; Apt 4; Springfield" = "123 Main St ... Springfield".
Proof.
  intros r.
  assert (H : str_or_absent r "mobile") by (right; eexists; reflexivity).
  split; [exact H|].
  split; [|repeat split; reflexivity].
  refine (proj1 (redact_record_fields r H _ _ _ _)).
  - left; reflexivity.
  - left; reflexivity.
  - right; eexists; reflexivity.
  - right; eexists; reflexivity.
Defined.

Lemma redact_id_truthy_nonempty (v : json) : truthy v = true -> redact_id v <> "".
Proof.
  unfold redact_id. intros ->. simpl.
  destruct (4 <? String.length (py_str v))%nat; [|discriminate].
  unfold py_prefix. destruct (substring 0 1 (py_str v)); discriminate.
Qed.

Lemma py_or_missing (o : option json) (d : json) : missing_or_falsy o -> py_or o d = d.
Proof. destruct o as [v|]; simpl; [intros ->|]; reflexivity. Qed.

Lemma redact_falsy (v : json) :
  truthy v = false -> redact_id v = "" /\ redact_mobile v = "".
Proof. unfold redact_id, redact_mobile. intros ->. split; reflexivity. Qed.

Lemma dget_or_missing_falsy (k : string) (r : list (string * json)) :
  missing_or_falsy (dget k r) -> truthy (dget_or k (JStr "") r) = false.
Proof. unfold dget_or. destruct (dget k r); simpl; auto. Qed.

(** C10: [redact_record] emits exactly the eight keys in order; the output
    [id] comes from [id] when it is present and truthy and otherwise from
    [id_number] (so a record with only a truthy [id_number] gets a
    non-empty [id]); [id_number] is always redacted on its own; missing or
    falsy [mobile], [alt_mobile], [id_number] (and [id] together with
    [id_number]) give ""; a missing address gives ["REDACTED"]. *)
Theorem redact_record_shape (r : list (string * json)) :
  let out := redact_record r in
  List.map fst out =
    ["id"; "mobile"; "alt_mobile"; "name"; "father_name"; "address"; "circle"; "id_number"] /\
  (forall v, dget "id" r = Some v -> truthy v = true ->
     dget "id" out = Some (JStr (redact_id v))) /\
  (missing_or_falsy (dget "id" r) ->
     dget "id" out = Some (JStr (redact_id (dget_or "id_number" (JStr "") r)))) /\
  (forall v, dget "id" r = None -> dget "id_number" r = Some v -> truthy v = true ->
     exists s, dget "id" out = Some (JStr s) /\ s <> "") /\
  dget "id_number" out = Some (JStr (redact_id (dget_or "id_number" (JStr "") r))) /\
  (missing_or_falsy (dget "mobile" r) -> dget "mobile" out = Some (JStr "")) /\
  (missing_or_falsy (dget "alt_mobile" r) -> dget "alt_mobile" out = Some (JStr "")) /\
  (missing_or_falsy (dget "id_number" r) -> dget "id_number" out = Some (JStr "")) /\
  (missing_or_falsy (dget "id" r) -> missing_or_falsy (dget "id_number" r) ->
     dget "id" out = Some (JStr "")) /\
  (dget "address" r = None -> dget "address" out = Some (JStr "REDACTED")).
Proof.
  intros out; subst out; unfold redact_record; cbn [List.map fst dget String.eqb Ascii.eqb Bool.eqb].
  repeat split.
  - intros v Hv Ht. rewrite Hv. simpl. rewrite Ht. reflexivity.
  - intros Hm. rewrite py_or_missing by exact Hm. reflexivity.
  - intros v Hi Hn Ht. rewrite Hi. simpl. unfold dget_or. rewrite Hn.
    exists (redact_id v). split; [reflexivity|]. apply redact_id_truthy_nonempty, Ht.
  - intros Hm. rewrite py_or_missing by exact Hm. simpl. reflexivity.
  - intros Hm. rewrite py_or_missing by exact Hm. simpl. reflexivity.
  - intros Hm. apply dget_or_missing_falsy in Hm.
    rewrite (proj1 (redact_falsy _ Hm)). reflexivity.
  - intros Hi Hn. rewrite py_or_missing by exact Hi.
    apply dget_or_missing_falsy in Hn. rewrite (proj1 (redact_falsy _ Hn)). reflexivity.
  - intros Ha. unfold dget_or. rewrite Ha. reflexivity.
Qed.

(** ** Upstream payload classification *)

Lemma render_confirm_not_no_records (num : string) (n : nat) (pretty : string) :
  render_confirm num n pretty <> [EditText msg_no_records false].
Proof.
  unfold render_confirm. destruct (4000 <? String.length pretty)%nat; discriminate.
Qed.

(** C5: on an HTTP 200 JSON body, a list gives one record per element, a
    truthy non-list value gives a one-record list, a falsy one gives no
    records, and the confirm path answers "no records found" exactly when
    there are no records. *)
Theorem payload_classification (payload : json) (num text : string) :
  (forall l, payload = JArr l -> payload_rows payload = l) /\
  ((forall l, payload <> JArr l) -> truthy payload = true -> payload_rows payload = [payload]) /\
  ((forall l, payload <> JArr l) -> truthy payload = false -> payload_rows payload = []) /\
  (confirm_after_upstream num (Resp 200 text (Some payload)) = [EditText msg_no_records false]
     <-> payload_rows payload = []).
Proof.
  split; [intros l ->; reflexivity|].
  split; [intros Hn Ht; destruct payload as [| | | | l |]; simpl in *;
          try reflexivity; try discriminate; try (exfalso; eapply Hn; reflexivity); rewrite Ht; reflexivity|].
  split; [intros Hn Ht; destruct payload as [| | | | l |]; simpl in *;
          try reflexivity; try discriminate; try (exfalso; eapply Hn; reflexivity); rewrite Ht; reflexivity|].
  unfold confirm_after_upstream; cbn [Z.eqb negb].
  destruct (payload_rows payload) as [|row rows]; split; try reflexivity.
  - intros H. exfalso. destruct (redact_rows (row :: rows)).
    + eapply render_confirm_not_no_records, H.
    + discriminate.
  - discriminate.
Qed.

(** ** Rendering *)

Lemma prefix_app (s t : string) : String.prefix s (s ++ t) = true.
Proof.
  induction s as [|c s IH]; simpl; [destruct t; reflexivity|].
  destruct (ascii_dec c c); [exact IH|congruence].
Qed.

Lemma contains_prefix (s h : string) : String.prefix s h = true -> contains s h = true.
Proof. intros H. destruct h; cbn [contains]; rewrite H; reflexivity. Qed.

Lemma contains_app (s a b : string) : contains s (a ++ s ++ b) = true.
Proof.
  induction a as [|c a IH]; simpl.
  - exact (contains_prefix s (s ++ b) (prefix_app s b)).
  - rewrite IH, orb_true_r. reflexivity.
Qed.

Lemma append_cons (c : ascii) (s t : string) : String c s ++ t = String c (s ++ t).
Proof. reflexivity. Qed.

Lemma append_empty_r (s : string) : s ++ "" = s.
Proof. induction s as [|c s IH]; [reflexivity|rewrite append_cons, IH; reflexivity]. Qed.

Lemma contains_refl (s : string) : contains s s = true.
Proof. apply contains_prefix. pose proof (prefix_app s "") as H. rewrite append_empty_r in H. exact H. Qed.

Lemma contains_weaken_l (s t a : string) : contains s t = true -> contains s (a ++ t) = true.
Proof.
  intros H. induction a as [|c a IH]; [exact H|].
  rewrite append_cons. cbn [contains]. rewrite IH, orb_true_r. reflexivity.
Qed.

(** C6: on both the redacted (confirm) and the raw path, the serialised
    result goes out as a file iff it is longer than 4000 characters and
    inline inside [<pre>] iff it is at most 4000 characters long. *)
Theorem render_threshold (num : string) (nrows : nat) (pretty : string) :
  (existsb is_document (render_confirm num nrows pretty) = true
     <-> 4000 < String.length pretty)%nat /\
  (existsb (inline_pre pretty) (render_confirm num nrows pretty) = true
     <-> String.length pretty <= 4000)%nat /\
  (existsb is_document (render_raw num pretty) = true
     <-> 4000 < String.length pretty)%nat /\
  (existsb (inline_pre pretty) (render_raw num pretty) = true
     <-> String.length pretty <= 4000)%nat.
Proof.
  unfold render_confirm, render_raw.
  destruct (Nat.ltb_spec 4000 (String.length pretty)) as [Hlt|Hge];
  cbn [existsb is_document inline_pre orb].
  - repeat split; intros H; try lia; try reflexivity; discriminate.
  - rewrite ?orb_false_r.
    repeat split; intros H; try lia; try discriminate;
    repeat (first [apply contains_refl | apply contains_weaken_l]).
Qed.

(** ** Admin gate *)

(** C7 (claim as stated): with the token set and [ADMIN_ID=0] in the
    environment, a non-admin caller is told that the feature is not
    configured rather than that it is not authorised. *)
Lemma raw_admin_id_zero_reports_not_configured :
  let cfg := {| REMOTE_API_KEY := "TheDarkAgain";
                REMOTE_API_BASE := "https://osintt.onrender.com/index.php";
                ADMIN_TOKEN := "secret"; ADMIN_ID := Some 0%Z |} in
  r_acts (raw_cmd_wrapped cfg scenario_upstream (Some 5%Z) ["7990127515"])
    = [ReplyText msg_not_configured false] /\
  r_acts (raw_cmd_wrapped cfg scenario_upstream (Some 5%Z) ["7990127515"])
    <> [ReplyText msg_not_authorized false].
Proof. split; [reflexivity|discriminate]. Qed.

(** C7 (amended): if the admin token is empty or the admin id is unset or
    0, /raw replies "not configured"; otherwise a caller that is absent or
    has another id gets the authorisation-denied reply; in both cases the
    reply does not depend on the arguments or the upstream (the wrapped
    handler is not run) and no upstream request is made.  The admin
    itself gets exactly what [raw_cmd] does. *)
Theorem raw_admin_gate (cfg : config) (user : option Z) :
  ((ADMIN_TOKEN cfg = "" \/ ADMIN_ID cfg = None \/ ADMIN_ID cfg = Some 0%Z) ->
     forall upstream args,
       raw_cmd_wrapped cfg upstream user args
       = {| r_acts := [ReplyText msg_not_configured false]; r_requests := [] |}) /\
  (forall a, ADMIN_TOKEN cfg <> "" -> ADMIN_ID cfg = Some a -> a <> 0%Z -> user <> Some a ->
     forall upstream args,
       raw_cmd_wrapped cfg upstream user args
       = {| r_acts := [ReplyText msg_not_authorized false]; r_requests := [] |}) /\
  (forall a, ADMIN_TOKEN cfg <> "" -> ADMIN_ID cfg = Some a -> a <> 0%Z -> user = Some a ->
     forall upstream args,
       raw_cmd_wrapped cfg upstream user args = raw_cmd cfg upstream args).
Proof.
  unfold raw_cmd_wrapped, require_admin.
  split; [|split].
  - intros H upstream args.
    destruct H as [->|[->| ->]]; simpl; [reflexivity|rewrite orb_true_r; reflexivity|].
    rewrite orb_true_r. reflexivity.
  - intros a Ht Ha Hz Hu upstream args.
    rewrite Ha. simpl. rewrite (proj2 (Z.eqb_neq a 0) Hz), orb_false_r.
    destruct (String.eqb_spec (ADMIN_TOKEN cfg) "") as [E|_]; [contradiction|simpl].
    destruct user as [u|]; [|reflexivity].
    rewrite bool_decide_false; [reflexivity|congruence].
  - intros a Ht Ha Hz -> upstream args.
    rewrite Ha. simpl. rewrite (proj2 (Z.eqb_neq a 0) Hz), orb_false_r.
    destruct (String.eqb_spec (ADMIN_TOKEN cfg) "") as [E|_]; [contradiction|simpl].
    rewrite bool_decide_true; reflexivity.
Qed.

(** ** The confirm callback *)

Lemma prefix_empty (s : string) : String.prefix "" s = true.
Proof. destruct s; reflexivity. Qed.

Lemma confirm_data (s : string) :
  "confirm|" ++ s =
  String "c" (String "o" (String "n" (String "f" (String "i" (String "r" (String "m"
    (String "|" s))))))).
Proof. reflexivity. Qed.

(** C9: a callback [confirm|s] reaches the upstream request for any [s]
    once the rate limiter lets it through, with [s] placed verbatim in
    the URL; nothing validates [s] on this path. *)
Theorem confirm_request_unvalidated (cfg : config) (upstream : string -> response)
    (st : last_call_map) (chat_id : Z) (now : Q) (s : string) :
  requests (callback_query_handler cfg upstream st chat_id now ("confirm|" ++ s)) =
  if fst (fst (rate_limited st chat_id now)) then []
  else [REMOTE_API_BASE cfg ++ "?num=" ++ s ++ "&key=" ++ REMOTE_API_KEY cfg].
Proof.
  unfold callback_query_handler. rewrite confirm_data.
  destruct (rate_limited st chat_id now) as [[limited wait] st'].
  simpl. rewrite prefix_empty. destruct limited; reflexivity.
Qed.

(** C2: end to end on the confirm path, with the upstream stubbed to
    answer HTTP 200 and [[{"mobile": "9876543210", "id_number": "AB1234567"}]]:
    once the rate limiter lets the call through, the final chat text
    contains ["***-***-3210"] and ["A***67"] and no chat action carries
    ["9876543210"] or ["AB1234567"]. *)
Theorem scenario_redacted_output (cfg : config) (st : last_call_map) (chat_id : Z) (now : Q)
    (Hfree : fst (fst (rate_limited st chat_id now)) = false) :
  let o := callback_query_handler cfg scenario_upstream st chat_id now "confirm|7990127515" in
  contains "***-***-3210" (final_text (acts o)) = true /\
  contains "A***67" (final_text (acts o)) = true /\
  forallb (fun a => negb (contains "9876543210" (action_text a))
                    && negb (contains "AB1234567" (action_text a))) (acts o) = true.
Proof.
  intros o. subst o. unfold callback_query_handler.
  destruct (rate_limited st chat_id now) as [[limited wait] st'].
  simpl in Hfree. subst limited.
  vm_compute. repeat split.
Qed.

Lemma scenario_redacted_output_witness :
  let cfg := {| REMOTE_API_KEY := "TheDarkAgain";
                REMOTE_API_BASE := "https://osintt.onrender.com/index.php";
                ADMIN_TOKEN := ""; ADMIN_ID := None |} in
  fst (fst (rate_limited ∅ 5 1700000000)) = false /\
  contains "***-***-3210"
    (final_text (acts (callback_query_handler cfg scenario_upstream ∅ 5 1700000000
                         "confirm|7990127515"))) = true.
Proof.
  intros cfg. split; [reflexivity|].
  apply (scenario_redacted_output cfg ∅ 5 1700000000). reflexivity.
Defined.

(** * Properties of the rest of the bot *)

Lemma validate_accepts_clean (n c : string) :
  validate_indian_number n = Some c -> validate_indian_number c = Some c.
Proof.
  unfold validate_indian_number.
  destruct (_ && _) eqn:E; [|discriminate].
  intros [= <-]. rewrite keep_digits_idem, E. reflexivity.
Qed.

(** ** [check_cmd] *)

(** X1: [/check] spends the chat's rate-limit slot before looking at its
    arguments: a missing or invalid number still records the call, and the
    command never reaches the upstream. *)
Theorem check_cmd_consumes_slot (st : last_call_map) (chat_id : Z) (now : Q)
    (args : list string) :
  b_last_call (check_cmd st chat_id now args) =
    (if fst (fst (rate_limited st chat_id now)) then st else <[chat_id := now]> st) /\
  b_requests (check_cmd st chat_id now args) = [].
Proof.
  unfold check_cmd, rate_limited.
  destruct (Qltb _ COOLDOWN); simpl; [split; reflexivity|].
  destruct args as [|num rest]; [split; reflexivity|].
  destruct (validate_indian_number num); split; reflexivity.
Qed.

Lemma check_cmd_prompt_inv (st : last_call_map) (chat_id : Z) (t : Q)
    (args : list string) (clean : string) :
  b_acts (check_cmd st chat_id t args) = [consent_prompt clean] ->
  b_last_call (check_cmd st chat_id t args) = <[chat_id := t]> st /\
  exists num rest, args = num :: rest /\ validate_indian_number num = Some clean.
Proof.
  unfold check_cmd, rate_limited.
  destruct (Qltb _ COOLDOWN); simpl; [discriminate|].
  destruct args as [|num rest]; [discriminate|].
  destruct (validate_indian_number num) as [c|] eqn:V; [|discriminate].
  intros H. injection H as _ Hc. change (c = clean) in Hc. subst c.
  split; [reflexivity|].
  exists num, rest. split; [reflexivity|exact V].
Qed.

(** X2: the consent prompt of [/check] carries the validated digits, and
    the chat's slot was just spent on the command: pressing Confirm less
    than 3 seconds later is refused by the rate limiter without any
    upstream request; pressing it later requests exactly those digits. *)
Theorem check_then_confirm (cfg : config) (upstream : string -> response)
    (st : last_call_map) (chat_id : Z) (t t' : Q) (args : list string) (clean : string)
    (Hprompt : b_acts (check_cmd st chat_id t args) = [consent_prompt clean]) :
  let st1 := b_last_call (check_cmd st chat_id t args) in
  validate_indian_number clean = Some clean /\
  requests (callback_query_handler cfg upstream st1 chat_id t' ("confirm|" ++ clean)) =
    (if Qltb (t' - t) COOLDOWN then [] else [upstream_url cfg clean]).
Proof.
  intros st1.
  destruct (check_cmd_prompt_inv st chat_id t args clean Hprompt)
    as (Hst & num & rest & -> & V).
  split; [exact (validate_accepts_clean num clean V)|].
  subst st1. rewrite Hst.
  unfold callback_query_handler. rewrite confirm_data.
  unfold rate_limited. rewrite lookup_insert_eq.
  destruct (Qltb (t' - t) COOLDOWN); simpl; rewrite prefix_empty; reflexivity.
Qed.

Lemma check_then_confirm_witness :
  let args := ["799-012-7515"] in
  let cfg := {| REMOTE_API_KEY := "TheDarkAgain";
                REMOTE_API_BASE := "https://osintt.onrender.com/index.php";
                ADMIN_TOKEN := ""; ADMIN_ID := None |} in
  b_acts (check_cmd ∅ 5 1700000000 args) = [consent_prompt "7990127515"] /\
  requests (callback_query_handler cfg scenario_upstream
              (b_last_call (check_cmd ∅ 5 1700000000 args)) 5 1700000001
              ("confirm|" ++ "7990127515")) = [].
Proof.
  intros args cfg.
  assert (H : b_acts (check_cmd ∅ 5 1700000000 args) = [consent_prompt "7990127515"])
    by reflexivity.
  split; [exact H|].
  rewrite (proj2 (check_then_confirm cfg scenario_upstream ∅ 5 1700000000 1700000001
                    args "7990127515" H)).
  reflexivity.
Defined.

(** ** [message_handler] *)

Lemma isspace_not_digit (c : ascii) : isspace c = true -> isdigit c = false.
Proof.
  unfold isspace, isdigit. set (n := nat_of_ascii c). intros H.
  apply orb_true_iff in H.
  destruct (Nat.leb_spec 48 n), (Nat.leb_spec n 57); simpl; try reflexivity.
  destruct H as [H|H]; apply andb_true_iff in H as [Ha Hb];
  apply Nat.leb_le in Ha; apply Nat.leb_le in Hb; lia.
Qed.

Lemma string_list_inj (s1 s2 : string) :
  list_ascii_of_string s1 = list_ascii_of_string s2 -> s1 = s2.
Proof.
  intros H. rewrite <- (string_of_list_ascii_of_string s1), H.
  apply string_of_list_ascii_of_string.
Qed.

Lemma list_rev_string (s : string) :
  list_ascii_of_string (rev_string s) = List.rev (list_ascii_of_string s).
Proof. unfold rev_string. apply list_ascii_of_string_of_list_ascii. Qed.

Lemma filter_digits_lstrip (s : string) :
  List.filter isdigit (list_ascii_of_string (lstrip s)) =
  List.filter isdigit (list_ascii_of_string s).
Proof.
  induction s as [|c r IH]; simpl; [reflexivity|].
  destruct (isspace c) eqn:E; [|reflexivity].
  rewrite IH, (isspace_not_digit c E). reflexivity.
Qed.

Lemma keep_digits_strip (s : string) : keep_digits (py_strip s) = keep_digits s.
Proof.
  apply string_list_inj. rewrite !keep_digits_list.
  unfold py_strip.
  rewrite list_rev_string, filter_rev, filter_digits_lstrip, list_rev_string,
    filter_rev, filter_digits_lstrip, rev_involutive.
  reflexivity.
Qed.

Lemma validate_strip (s : string) :
  validate_indian_number (py_strip s) = validate_indian_number s.
Proof. unfold validate_indian_number. rewrite keep_digits_strip. reflexivity. Qed.

(** X3: a plain text message whose digits form a valid number, whatever
    else it contains, starts the check flow: if the chat is not rate
    limited, the bot answers with the consent prompt for those digits and
    records the call. *)
Theorem message_handler_valid (st : last_call_map) (chat_id : Z) (now : Q)
    (text clean : string)
    (Hvalid : validate_indian_number text = Some clean)
    (Hfree : fst (fst (rate_limited st chat_id now)) = false) :
  b_acts (message_handler st chat_id now text) = [consent_prompt clean] /\
  b_requests (message_handler st chat_id now text) = [] /\
  b_last_call (message_handler st chat_id now text) = <[chat_id := now]> st.
Proof.
  unfold message_handler. rewrite validate_strip, Hvalid.
  unfold check_cmd. revert Hfree. unfold rate_limited.
  destruct (Qltb _ COOLDOWN); simpl; [discriminate|intros _].
  rewrite validate_strip, Hvalid. repeat split.
Qed.

Lemma message_handler_valid_witness :
  b_acts (message_handler ∅ 5 1700000000 "call 79901 27515 now")
  = [consent_prompt "7990127515"].
Proof.
  apply (message_handler_valid ∅ 5 1700000000 "call 79901 27515 now"); reflexivity.
Defined.

(** X4: any other text message gets the help reply, leaves the rate-limit
    state untouched and makes no upstream request. *)
Theorem message_handler_invalid (st : last_call_map) (chat_id : Z) (now : Q)
    (text : string) (Hinvalid : validate_indian_number text = None) :
  message_handler st chat_id now text =
  {| b_acts := [Act (ReplyText msg_text_help false)]; b_requests := []; b_last_call := st |}.
Proof. unfold message_handler. rewrite validate_strip, Hinvalid. reflexivity. Qed.

Lemma message_handler_invalid_witness :
  b_last_call (message_handler ∅ 5 1700000000 "+91 79901 27515") = ∅.
Proof.
  rewrite (message_handler_invalid ∅ 5 1700000000 "+91 79901 27515"); reflexivity.
Defined.

(** ** Dispatch *)

Lemma prefix_split (p s : string) : String.prefix p s = true -> exists r, s = p ++ r.
Proof.
  revert s. induction p as [|c p IH]; intros s H.
  - exists s. reflexivity.
  - destruct s as [|c' s]; [discriminate|].
    simpl in H. destruct (ascii_dec c c') as [<-|]; [|discriminate].
    destruct (IH s H) as [r ->]. exists r. reflexivity.
Qed.

Lemma rate_limited_state (st : last_call_map) (chat_id : Z) (now : Q) :
  snd (rate_limited st chat_id now) = st \/
  snd (rate_limited st chat_id now) = <[chat_id := now]> st.
Proof. unfold rate_limited. destruct (Qltb _ COOLDOWN); simpl; auto. Qed.

Lemma check_cmd_shape (st : last_call_map) (chat_id : Z) (now : Q) (args : list string) :
  b_requests (check_cmd st chat_id now args) = [] /\
  b_last_call (check_cmd st chat_id now args) = snd (rate_limited st chat_id now).
Proof.
  unfold check_cmd. destruct (rate_limited st chat_id now) as [[limited w] st'].
  destruct limited; [split; reflexivity|].
  destruct args as [|num rest]; [split; reflexivity|].
  destruct (validate_indian_number num); split; reflexivity.
Qed.

Lemma message_handler_shape (st : last_call_map) (chat_id : Z) (now : Q) (text : string) :
  b_requests (message_handler st chat_id now text) = [] /\
  (b_last_call (message_handler st chat_id now text) = st \/
   b_last_call (message_handler st chat_id now text) = snd (rate_limited st chat_id now)).
Proof.
  unfold message_handler.
  destruct (validate_indian_number (py_strip text)); [|split; [reflexivity|left; reflexivity]].
  destruct (check_cmd_shape st chat_id now [py_strip text]) as [H1 H2].
  split; [exact H1|right; exact H2].
Qed.

Lemma raw_cmd_wrapped_requests (cfg : config) (upstream : string -> response)
    (user : option Z) (args : list string) :
  (List.length (r_requests (raw_cmd_wrapped cfg upstream user args)) <= 1)%nat.
Proof.
  unfold raw_cmd_wrapped, require_admin.
  destruct (_ || _); [simpl; lia|].
  destruct user as [u|]; [|simpl; lia].
  destruct (bool_decide _); [|simpl; lia].
  unfold raw_cmd. destruct args as [|num rest]; [simpl; lia|].
  destruct (validate_indian_number num); simpl; lia.
Qed.

(** X5: across every kind of update the bot handles, at most one upstream
    request is made, and only by a [confirm|...] button press or by /raw;
    /start, /check, text messages, [cancel] and other callbacks never
    reach the upstream. *)
Theorem bot_step_requests (cfg : config) (upstream : string -> response)
    (st : last_call_map) (chat_id : Z) (now : Q) (u : update) :
  (List.length (b_requests (bot_step cfg upstream st chat_id now u)) <= 1)%nat /\
  (b_requests (bot_step cfg upstream st chat_id now u) <> [] ->
   (exists s, u = UCallback ("confirm|" ++ s)) \/ (exists user args, u = URaw user args)).
Proof.
  destruct u as [|args|user args|data|text|]; simpl.
  - split; [lia|congruence].
  - rewrite (proj1 (check_cmd_shape st chat_id now args)). split; [simpl; lia|congruence].
  - split; [apply raw_cmd_wrapped_requests|intros _; right; eauto].
  - unfold callback_query_handler.
    destruct (String.eqb data "cancel"); [simpl; split; [lia|congruence]|].
    destruct (String.prefix "confirm|" data) eqn:P; [|simpl; split; [lia|congruence]].
    destruct (split1_rest "|" data) as [num|]; [|simpl; split; [lia|congruence]].
    destruct (rate_limited st chat_id now) as [[limited w] st'].
    destruct limited; simpl; (split; [lia|]); [congruence|].
    intros _. left. apply prefix_split in P as [r ->]. eauto.
  - rewrite (proj1 (message_handler_shape st chat_id now text)). split; [simpl; lia|congruence].
  - split; [lia|congruence].
Qed.

Example bot_step_confirm_example :
  b_requests (bot_step {| REMOTE_API_KEY := "k"; REMOTE_API_BASE := "b";
                          ADMIN_TOKEN := ""; ADMIN_ID := None |}
                scenario_upstream ∅ 5 1700000000 (UCallback "confirm|7990127515"))
  = ["b?num=7990127515&key=k"].
Proof. reflexivity. Qed.

(** X6: whatever the update, the rate-limit map either stays as it was or
    changes only at the current chat id, to the current time. *)
Theorem bot_step_last_call (cfg : config) (upstream : string -> response)
    (st : last_call_map) (chat_id : Z) (now : Q) (u : update) :
  b_last_call (bot_step cfg upstream st chat_id now u) = st \/
  b_last_call (bot_step cfg upstream st chat_id now u) = <[chat_id := now]> st.
Proof.
  destruct u as [|args|user args|data|text|]; simpl; try (left; reflexivity).
  - rewrite (proj2 (check_cmd_shape st chat_id now args)). apply rate_limited_state.
  - unfold callback_query_handler.
    destruct (String.eqb data "cancel"); [left; reflexivity|].
    destruct (String.prefix "confirm|" data); [|left; reflexivity].
    destruct (split1_rest "|" data) as [num|]; [|left; reflexivity].
    pose proof (rate_limited_state st chat_id now) as Hs.
    destruct (rate_limited st chat_id now) as [[limited w] st'].
    destruct limited; exact Hs.
  - destruct (message_handler_shape st chat_id now text) as [_ [H|H]]; rewrite H;
      [left; reflexivity|apply rate_limited_state].
Qed.

(** ** Records of the confirm path *)

(** X7: [redact_record] is applied to every row, so the redaction fails
    exactly when some row is not a dict; otherwise it gives one redacted
    dict per row, in order. *)
Theorem redact_rows_spec (rows : list json) :
  (redact_rows rows = None <-> existsb (fun v => negb (is_obj v)) rows = true) /\
  (forall out, redact_rows rows = Some out ->
     List.length out = List.length rows /\
     Forall2 (fun row v => exists r, row = JObj r /\ v = JObj (redact_record r)) rows out).
Proof.
  induction rows as [|row rows IH]; simpl.
  - split; [split; discriminate|]. intros out [= <-]. split; [reflexivity|constructor].
  - destruct IH as [IHn IHs].
    destruct row as [| | | | |r]; simpl;
      try (split; [split; reflexivity|discriminate]).
    destruct (redact_rows rows) as [out|] eqn:E.
    + split.
      * split; [discriminate|]. intros H. apply IHn in H. discriminate.
      * intros out' [= <-]. destruct (IHs out eq_refl) as [Hl Hf].
        split; [simpl; rewrite Hl; reflexivity|]. constructor; [eauto|exact Hf].
    + split; [split; [intros _; apply IHn; reflexivity|reflexivity]|discriminate].
Qed.

(** X8: on an HTTP 200 JSON answer, a row that is not a dict (for instance
    any truthy string, number or [true] sent as the whole body) makes the
    confirm handler fail with [AttributeError] after "Checking..."
    instead of answering. *)
Theorem confirm_non_dict_row_crashes (num text : string) (payload : json)
    (Hrow : existsb (fun v => negb (is_obj v)) (payload_rows payload) = true) :
  confirm_after_upstream num (Resp 200 text (Some payload)) = [Crash "AttributeError"].
Proof.
  unfold confirm_after_upstream. cbn [Z.eqb negb].
  assert (Hn : redact_rows (payload_rows payload) = None).
  { induction (payload_rows payload) as [|row rows IH]; [discriminate|].
    simpl in Hrow |- *. destruct row; simpl in Hrow; try reflexivity.
    rewrite (IH Hrow). reflexivity. }
  destruct (payload_rows payload) as [|row rows]; [discriminate|].
  rewrite Hn. reflexivity.
Qed.

Lemma confirm_non_dict_row_crashes_witness :
  confirm_after_upstream "7990127515" (Resp 200 "ok" (Some (JStr "ok")))
  = [Crash "AttributeError"].
Proof. apply confirm_non_dict_row_crashes. reflexivity. Defined.

(** ** Bounds of the redacted values *)

Lemma str_length_app (a b : string) :
  String.length (a ++ b) = (String.length a + String.length b)%nat.
Proof. induction a as [|c a IH]; [reflexivity|rewrite append_cons; simpl; lia]. Qed.

Lemma substring_length_le (n m : nat) (s : string) :
  (String.length (substring n m s) <= m)%nat.
Proof.
  revert n m. induction s as [|c s IH]; intros n m.
  - destruct n, m; simpl; lia.
  - destruct n as [|n]; [destruct m as [|m]; simpl; [lia|specialize (IH 0 m); lia]|].
    simpl. apply IH.
Qed.

(** X9: whatever value a field holds, a redacted phone number is at most
    12 characters long and a redacted identifier at most 6. *)
Theorem redaction_length_bounds (v : json) :
  (String.length (redact_mobile v) <= 12)%nat /\ (String.length (redact_id v) <= 6)%nat.
Proof.
  unfold redact_mobile, redact_id, py_suffix, py_prefix.
  destruct (truthy v); simpl negb; cbv iota; [|simpl; lia].
  split.
  - destruct (4 <=? String.length (py_str v))%nat eqn:E; [|simpl; lia].
    rewrite str_length_app. pose proof (substring_length_le
      (String.length (py_str v) - 4) 4 (py_str v)). simpl. lia.
  - destruct (Nat.ltb_spec 4 (String.length (py_str v))); [|simpl; lia].
    replace (2 <=? String.length (py_str v))%nat with true
      by (symmetry; apply Nat.leb_le; lia).
    rewrite !str_length_app.
    pose proof (substring_length_le 0 1 (py_str v)).
    pose proof (substring_length_le (String.length (py_str v) - 2) 2 (py_str v)).
    simpl. lia.
Qed.

(** ** The redacted address *)

Lemma chars_app (a b : string) :
  list_ascii_of_string (a ++ b) = (list_ascii_of_string a ++ list_ascii_of_string b)%list.
Proof. induction a as [|c a IH]; [reflexivity|rewrite append_cons; simpl; rewrite IH; reflexivity]. Qed.

Lemma substring_chars (n m : nat) (s : string) (c : ascii) :
  In c (list_ascii_of_string (substring n m s)) -> In c (list_ascii_of_string s).
Proof.
  revert n m. induction s as [|c' s IH]; intros n m.
  - destruct n, m; simpl; tauto.
  - destruct n as [|n]; [destruct m as [|m]; simpl; [tauto|]|].
    + intros [->|H]; [left; reflexivity|right; exact (IH 0 m H)].
    + simpl. intros H. right. exact (IH n m H).
Qed.

Lemma lstrip_chars (s : string) (c : ascii) :
  In c (list_ascii_of_string (lstrip s)) -> In c (list_ascii_of_string s).
Proof.
  induction s as [|c' s IH]; simpl; [tauto|].
  destruct (isspace c'); simpl; auto.
Qed.

Lemma strip_chars (s : string) (c : ascii) :
  In c (list_ascii_of_string (py_strip s)) -> In c (list_ascii_of_string s).
Proof.
  unfold py_strip. rewrite list_rev_string. intros H.
  apply in_rev, lstrip_chars in H. rewrite list_rev_string in H.
  apply in_rev, lstrip_chars in H. exact H.
Qed.

Lemma split_seps_chars (s : string) (cur : list ascii) (p : string) (c : ascii) :
  (forall c', In c' cur -> addr_sep c' = false) ->
  In p (split_seps s cur) -> In c (list_ascii_of_string p) -> addr_sep c = false.
Proof.
  revert cur. induction s as [|c0 s IH]; intros cur Hcur; simpl.
  - intros [<-|[]]. rewrite list_ascii_of_string_of_list_ascii.
    intros Hc. apply Hcur, in_rev, Hc.
  - destruct (addr_sep c0) eqn:Hs.
    + intros [<-|Hp].
      * rewrite list_ascii_of_string_of_list_ascii. intros Hc. apply Hcur, in_rev, Hc.
      * apply (IH [] (fun _ H => match H with end) Hp).
    + apply IH. intros c' [<-|H]; [exact Hs|apply Hcur, H].
Qed.

Lemma segments_chars (a p : string) (c : ascii) :
  In p (segments a) -> In c (list_ascii_of_string p) -> addr_sep c = false.
Proof.
  unfold segments. intros Hp Hc.
  apply filter_In in Hp as [Hp _]. apply in_map_iff in Hp as (q & <- & Hq).
  apply strip_chars in Hc.
  exact (split_seps_chars a [] q c (fun _ H => match H with end) Hq Hc).
Qed.

Lemma last_in_cons {A} (x : A) (l : list A) (d : A) : In (List.last (x :: l) d) (x :: l).
Proof.
  revert x. induction l as [|y l IH]; intros x; [left; reflexivity|].
  right. apply (IH y).
Qed.

Lemma redact_address_no_sep_in (v : json) (c : ascii) :
  In c (list_ascii_of_string (redact_address v)) -> c <> ";"%char /\ c <> "!"%char.
Proof.
  intros Hc.
  enough (H : addr_sep c = false).
  { unfold addr_sep in H. apply orb_false_iff in H as [H1 H2].
    split; intros ->; discriminate. }
  revert Hc. unfold redact_address.
  destruct (truthy v); simpl negb; cbv iota;
    [|intros H; repeat (destruct H as [<-|H]; [reflexivity|]); destruct H].
  rewrite address_parts_segments.
  pose proof (segments_chars (py_str v)) as Hs.
  destruct (segments (py_str v)) as [|p rest] eqn:E.
  - intros H; repeat (destruct H as [<-|H]; [reflexivity|]); destruct H.
  - assert (Hp : forall c, In c (list_ascii_of_string (py_prefix 30 p)) -> addr_sep c = false)
      by (intros c' H; apply (Hs p); [left; reflexivity|exact (substring_chars _ _ _ _ H)]).
    destruct rest as [|q rest].
    + rewrite chars_app. intros H. apply in_app_or in H as [H|H]; [exact (Hp c H)|].
      destruct (30 <? String.length p)%nat; simpl in H;
        repeat (destruct H as [<-|H]; [reflexivity|]); destruct H.
    + rewrite !chars_app. intros H.
      apply in_app_or in H as [H|H]; [exact (Hp c H)|].
      apply in_app_or in H as [H|H];
        [repeat (destruct H as [<-|H]; [reflexivity|]); destruct H|].
      apply (Hs (List.last (q :: rest) p)); [|exact H].
      right. apply last_in_cons.
Qed.

(** X10: the redacted address never contains a [';'] or a ['!'],
    whatever value the [address] field holds. *)
Theorem redact_address_no_separators (v : json) :
  Forall (fun c => c <> ";"%char /\ c <> "!"%char) (list_ascii_of_string (redact_address v)).
Proof. apply List.Forall_forall. intros c. apply redact_address_no_sep_in. Qed.

(** ** Upstream text relayed to the chat *)

Lemma prefix_substring0 (m : nat) (s : string) : String.prefix (substring 0 m s) s = true.
Proof.
  revert m. induction s as [|c s IH]; intros m; destruct m; simpl; try reflexivity.
  destruct (ascii_dec c c); [apply IH|congruence].
Qed.

Lemma substring0_short (m : nat) (s : string) :
  (String.length s <= m)%nat -> substring 0 m s = s.
Proof.
  revert m. induction s as [|c s IH]; intros m H; destruct m; simpl in *;
    try reflexivity; try lia.
  rewrite IH by lia. reflexivity.
Qed.

(** A piece of [text] cut to at most [k] characters. *)
Lemma py_prefix_cut (k : nat) (text : string) : cut_of k (py_prefix k text) text.
Proof.
  split; [apply prefix_substring0|]. split; [apply substring_length_le|].
  apply substring0_short.
Qed.

(** X11: on both the confirm and the raw path, an upstream error status
    is reported with the status and at most the first 500 characters of
    the body, and a 200 body that is not JSON is relayed cut to at most
    its first 4000 characters. *)
Theorem upstream_text_truncated (num text : string) (status : Z) (parsed : option json) :
  (status <> 200%Z ->
     exists b, cut_of 500 b text /\
       confirm_after_upstream num (Resp status text parsed)
         = [EditText ("Upstream error: " ++ Z_to_string status ++ " — " ++ b) false] /\
       raw_after_upstream num (Resp status text parsed)
         = [ReplyText ("Upstream error: " ++ Z_to_string status ++ " — " ++ b) false]) /\
  (exists b, cut_of 4000 b text /\
     confirm_after_upstream num (Resp 200 text None)
       = [EditText ("Upstream returned non-json:" ++ nl ++ nl ++ b) false] /\
     raw_after_upstream num (Resp 200 text None) = [ReplyText b false]).
Proof.
  split.
  - intros Hs. exists (py_prefix 500 text). split; [apply py_prefix_cut|].
    unfold confirm_after_upstream, raw_after_upstream.
    rewrite (proj2 (Z.eqb_neq status 200) Hs). split; reflexivity.
  - exists (py_prefix 4000 text). split; [apply py_prefix_cut|]. split; reflexivity.
Qed.

(** ** The rate-limit reply of the confirm callback *)

Lemma py_int_bounds (w : Q) : (0 < w)%Q -> (w <= 3)%Q -> (0 <= py_int w <= 3)%Z.
Proof.
  unfold py_int, Qlt, Qle. destruct w as [n d]; simpl. intros H1 H2.
  rewrite Z.quot_div_nonneg by lia.
  split; [apply Z.div_pos; lia|].
  apply Z.div_le_upper_bound; lia.
Qed.

(** X12: when a confirm press is refused because the chat's last
    recorded call, not later than now, is less than 3 seconds old, the bot
    asks to retry in 1 to 4 seconds and makes no request. *)
Theorem confirm_rate_limit_message (cfg : config) (upstream : string -> response)
    (st : last_call_map) (chat_id : Z) (now last : Q) (s : string)
    (Hlast : st !! chat_id = Some last) (Hmono : (last <= now)%Q)
    (Hrecent : (now - last < COOLDOWN)%Q) :
  let o := callback_query_handler cfg upstream st chat_id now ("confirm|" ++ s) in
  requests o = [] /\ last_call o = st /\
  exists n, (1 <= n <= 4)%Z /\
    acts o = [Answer; EditText ("Rate limit: try again in " ++ Z_to_string n ++ "s.") false].
Proof.
  intros o. subst o. unfold callback_query_handler. rewrite confirm_data.
  unfold rate_limited. rewrite Hlast.
  assert (Hq : Qltb (now - last) COOLDOWN = true) by (apply Qltb_spec; exact Hrecent).
  rewrite Hq. simpl. rewrite prefix_empty. simpl.
  split; [reflexivity|]. split; [reflexivity|].
  exists (py_int (COOLDOWN - (now - last)) + 1)%Z. split; [|reflexivity].
  assert (Hb : (0 <= py_int (COOLDOWN - (now - last)) <= 3)%Z)
    by (apply py_int_bounds; unfold COOLDOWN in *; lra).
  lia.
Qed.

Lemma confirm_rate_limit_message_witness :
  exists n, (1 <= n <= 4)%Z /\
  acts (callback_query_handler
          {| REMOTE_API_KEY := "k"; REMOTE_API_BASE := "b"; ADMIN_TOKEN := ""; ADMIN_ID := None |}
          scenario_upstream (<[5%Z := 10%Q]> ∅) 5 (23 # 2) ("confirm|" ++ "7990127515"))
  = [Answer; EditText ("Rate limit: try again in " ++ Z_to_string n ++ "s.") false].
Proof.
  destruct (confirm_rate_limit_message
              {| REMOTE_API_KEY := "k"; REMOTE_API_BASE := "b"; ADMIN_TOKEN := ""; ADMIN_ID := None |}
              scenario_upstream (<[5%Z := 10%Q]> ∅) 5 (23 # 2) 10 "7990127515")
    as (_ & _ & H).
  - reflexivity.
  - unfold Qle; simpl; lia.
  - unfold Qlt, COOLDOWN; simpl; lia.
  - exact H.
Defined.

(** ** The URL of /raw *)

(** X13: unlike the confirm callback, /raw only ever requests a number that
    passed the validator, and it sends the cleaned digits, not the
    argument as typed. *)
Theorem raw_cmd_url_validated (cfg : config) (upstream : string -> response)
    (args : list string) (url : string)
    (Hurl : In url (r_requests (raw_cmd cfg upstream args))) :
  exists num rest clean,
    args = num :: rest /\ validate_indian_number num = Some clean /\
    validate_indian_number clean = Some clean /\ url = upstream_url cfg clean.
Proof.
  unfold raw_cmd in Hurl. destruct args as [|num rest]; [destruct Hurl|].
  destruct (validate_indian_number num) as [clean|] eqn:V; [|destruct Hurl].
  destruct Hurl as [<-|[]].
  exists num, rest, clean. split; [reflexivity|]. split; [exact V|].
  split; [exact (validate_accepts_clean num clean V)|reflexivity].
Qed.

Lemma raw_cmd_url_validated_witness :
  exists clean, validate_indian_number "799-012-7515" = Some clean /\
    r_requests (raw_cmd {| REMOTE_API_KEY := "k"; REMOTE_API_BASE := "b";
                           ADMIN_TOKEN := "t"; ADMIN_ID := Some 7%Z |}
                  scenario_upstream ["799-012-7515"]) = [upstream_url
                    {| REMOTE_API_KEY := "k"; REMOTE_API_BASE := "b";
                       ADMIN_TOKEN := "t"; ADMIN_ID := Some 7%Z |} clean].
Proof.
  destruct (raw_cmd_url_validated
              {| REMOTE_API_KEY := "k"; REMOTE_API_BASE := "b"; ADMIN_TOKEN := "t"; ADMIN_ID := Some 7%Z |}
              scenario_upstream ["799-012-7515"] "b?num=7990127515&key=k")
    as (num & rest & clean & Ha & Hv & _ & Hu).
  - left; reflexivity.
  - injection Ha as Hn Hr. subst num rest. exists clean. split; [exact Hv|].
    rewrite <- Hu. reflexivity.
Defined.

(** ** String escaping of [json.dumps] *)

Lemma hex_digit_printable (n : nat) : (n < 16)%nat -> (48 <= nat_of_ascii (hex_digit n))%nat.
Proof. intros H. do 16 (destruct n as [|n]; [vm_compute; lia|]). lia. Qed.

Lemma hex2_printable (c : ascii) :
  Forall (fun x => 32 <= nat_of_ascii x)%nat (list_ascii_of_string (hex2 c)).
Proof.
  unfold hex2. pose proof (nat_ascii_bounded c).
  cbn [list_ascii_of_string]. constructor; [|constructor; [|constructor]].
  - pose proof (hex_digit_printable (nat_of_ascii c / 16)) as H1.
    assert (nat_of_ascii c / 16 < 16)%nat by (apply Nat.Div0.div_lt_upper_bound; lia). lia.
  - pose proof (hex_digit_printable (nat_of_ascii c mod 16)) as H1.
    assert (nat_of_ascii c mod 16 < 16)%nat by (apply Nat.mod_upper_bound; lia). lia.
Qed.

(** X14: every character of a string serialised by [json.dumps] is at
    least 32: the C0 control characters, line feed and carriage return
    among them, are always escaped.  DEL and characters above it are
    emitted as they are. *)
Theorem json_string_no_control (s : string) :
  Forall (fun x => 32 <= nat_of_ascii x)%nat (list_ascii_of_string (json_string s)).
Proof.
  unfold json_string. simpl. constructor; [vm_compute; lia|].
  rewrite chars_app. apply Forall_app. split; [|repeat constructor; vm_compute; lia].
  induction s as [|c s IH]; simpl; [constructor|].
  rewrite chars_app. apply Forall_app. split; [|exact IH].
  destruct (Ascii.eqb c dquote); [repeat constructor; vm_compute; lia|].
  destruct (Ascii.eqb c "\"); [repeat constructor; vm_compute; lia|].
  destruct (nat_of_ascii c =? 10)%nat; [repeat constructor; vm_compute; lia|].
  destruct (nat_of_ascii c =? 13)%nat; [repeat constructor; vm_compute; lia|].
  destruct (nat_of_ascii c =? 9)%nat; [repeat constructor; vm_compute; lia|].
  destruct (nat_of_ascii c =? 8)%nat; [repeat constructor; vm_compute; lia|].
  destruct (nat_of_ascii c =? 12)%nat; [repeat constructor; vm_compute; lia|].
  destruct (Nat.ltb_spec (nat_of_ascii c) 32).
  - rewrite chars_app. apply Forall_app. split; [repeat constructor; vm_compute; lia|].
    apply hex2_printable.
  - repeat constructor. lia.
Qed.
